(** * lunarphase-js: the Moon module ([src/Moon.ts])

    A shallow embedding of the calculation core of lunarphase-js and the
    properties its specification states about it.

    Number model.  A JavaScript [number] holding a finite value is modelled
    as a real number ([R]), which is also the data model of the specification
    ("a real number representing continuous day count").  [NaN] and the
    infinities are outside the model: the dates considered are the valid ones,
    whose Julian day is finite.  The age of the moon and the distance are
    computed in exact arithmetic, a decimal literal denoting its decimal
    value; what is proved of them relates the values the code computes to one
    another (ranges, threshold comparisons, flags).  The lunation number,
    whose properties turn on the value rounded, carries the rounding [fl] of
    each operation on doubles, and module [Double] evaluates it on binary64
    numbers themselves.

    The [date] parameters default to [new Date()] in the source; here the date
    is always passed explicitly, so every function is a function of its
    arguments alone. *)

From Stdlib Require Import Reals Lra Lia ZArith.
From stdpp Require Import gmap strings.
From Stdlib Require Import PrimFloat FloatOps SpecFloat Uint63.

Set Warnings "-inexact-float".

Local Open Scope R_scope.

(** ** JavaScript numbers: comparison operators *)

Module Number.

Definition lt (x y : R) : bool := if Rlt_dec x y then true else false.
Definition le (x y : R) : bool := if Rle_dec x y then true else false.
Definition gt (x y : R) : bool := lt y x.

End Number.

(** ** The [Math] object *)

Module Math.

(** [Math.floor]: the greatest integer not above [x]. *)
Definition floor (x : R) : R := IZR (Int_part x).

(** [Math.round]: the integer closest to [x]; of two equally close integers
    the one towards plus infinity (ECMAScript, [Math.round]). *)
Definition round (x : R) : R := floor (x + 1 / 2).

Definition PI : R := Rtrigo1.PI.
Definition cos (x : R) : R := Rtrigo_def.cos x.

End Math.

(** ** Completion of a call: a returned value or a thrown [Error] *)

Inductive Error : Type := MkError (message : string).

Inductive completion (A : Type) : Type :=
  | Return (value : A)
  | Throw (error : Error).
Arguments Return {A} value.
Arguments Throw {A} error.

(** ** [constants/LunarPhase], [constants/Hemisphere], [constants/LunarEmoji]

    The enumerations are declared outside [Moon.ts]; their members are the
    ones [Moon.ts] names. *)

Module LunarPhase.

Inductive t : Type :=
  | NEW
  | WAXING_CRESCENT
  | FIRST_QUARTER
  | WAXING_GIBBOUS
  | FULL
  | WANING_GIBBOUS
  | LAST_QUARTER
  | WANING_CRESCENT.

(** A value handed to a parameter typed [LunarPhase].  The type annotation is
    erased at run time, so a caller can pass a value that is no member of the
    enumeration; [Foreign] stands for such a value, by its string rendering. *)
Inductive arg : Type :=
  | Member (phase : t)
  | Foreign (rendering : string).

End LunarPhase.

Module Hemisphere.

Inductive t : Type := NORTHERN | SOUTHERN.

Definition opposite (h : t) : t :=
  match h with NORTHERN => SOUTHERN | SOUTHERN => NORTHERN end.

End Hemisphere.

Module LunarEmoji.

(** An emoji table: one glyph under each of the keys [Moon.ts] reads. *)
Record t : Type := Build {
  NEW : string;
  WAXING_CRESCENT : string;
  FIRST_QUARTER : string;
  WAXING_GIBBOUS : string;
  FULL : string;
  WANING_GIBBOUS : string;
  LAST_QUARTER : string;
  WANING_CRESCENT : string
}.

(** The entry of a table for a phase. *)
Definition entry (emoji : t) (phase : LunarPhase.t) : string :=
  match phase with
  | LunarPhase.NEW => NEW emoji
  | LunarPhase.WAXING_CRESCENT => WAXING_CRESCENT emoji
  | LunarPhase.FIRST_QUARTER => FIRST_QUARTER emoji
  | LunarPhase.WAXING_GIBBOUS => WAXING_GIBBOUS emoji
  | LunarPhase.FULL => FULL emoji
  | LunarPhase.WANING_GIBBOUS => WANING_GIBBOUS emoji
  | LunarPhase.LAST_QUARTER => LAST_QUARTER emoji
  | LunarPhase.WANING_CRESCENT => WANING_CRESCENT emoji
  end.

End LunarEmoji.

(** ** Options objects ([MoonOptions])

    An options object is a JavaScript object: a finite map from property
    names to values.  A property holds a member of [Hemisphere] or some other
    value ([undefined], a number, ...), kept by its string rendering. *)

Inductive value : Type :=
  | HemisphereValue (h : Hemisphere.t)
  | OtherValue (rendering : string).

#[global] Instance Hemisphere_eq_dec : EqDecision Hemisphere.t.
Proof. solve_decision. Defined.

#[global] Instance value_eq_dec : EqDecision value.
Proof. solve_decision. Defined.

Abbreviation object := (gmap string value).

(** Object spread [{ ...defaults, ...options }]: the properties of [options]
    override those of [defaults]; spreading [undefined] adds nothing. *)
Definition spread (defaults : object) (options : option object) : object :=
  match options with
  | Some o => o ∪ defaults
  | None => defaults
  end.

(** Modelled from the spec: [MoonOptionsFactory] (MoonOptions.ts is not among
    the sources); the default record is [{ hemisphere: NORTHERN }]. *)
Definition MoonOptionsFactory : object :=
  {[ "hemisphere"%string := HemisphereValue Hemisphere.NORTHERN ]}.

(** ** [utils/MathUtil] and [constants/Time] *)

(** Modelled from the spec: [normalize] (utils/MathUtil.ts is not among the
    sources); [normalize(x) = x - floor(x)]. *)
Definition normalize (x : R) : R := x - Math.floor x.

(** Modelled from the spec: [SYNODIC_MONTH] (constants/Time.ts is not among
    the sources); 29.53058770576 days. *)
Definition SYNODIC_MONTH : R := 29.53058770576.

(** ** What [Moon.ts] imports and the sources do not define

    The date type with its Julian-day conversion ([JulianDay.fromDate]), two
    constants of [constants/Time] and the two emoji tables. *)

Class Imports : Type := {
  Date : Type;
  JulianDay_fromDate : Date -> R;
  ANOMALISTIC_MONTH : R;
  LUNATION_BASE_JULIAN_DAY : R;
  NorthernHemisphereLunarEmoji : LunarEmoji.t;
  SouthernHemisphereLunarEmoji : LunarEmoji.t
}.

(** ** [src/Moon.ts] *)

Section Moon.

Context `{env : Imports}.

(** The rounding of a real number to a double, applied to the exact result of
    each operation of [lunationNumber]. *)
Variable fl : R -> R.

(** Percentage through the lunar synodic month. *)
Definition lunarAgePercent (date : Date) : R :=
  normalize ((JulianDay_fromDate date - 2451550.1) / SYNODIC_MONTH).

(** Moon's age, or Earth days since the last new moon. *)
Definition lunarAge (date : Date) : R :=
  let percent := lunarAgePercent date in
  percent * SYNODIC_MONTH.

(** Brown Lunation Number.  The subtraction, the division and the addition
    round their results; the literal [SYNODIC_MONTH] is the double nearest to
    its decimal value; [Math.round] of a double is a double and is exact. *)
Definition lunationNumber (date : Date) : R :=
  fl (Math.round
        (fl (fl (JulianDay_fromDate date - LUNATION_BASE_JULIAN_DAY) / fl SYNODIC_MONTH))
      + 1).

(** Distance to the moon measured in units of Earth radii. *)
Definition lunarDistance (date : Date) : R :=
  let julian := JulianDay_fromDate date in
  let agePercent := lunarAgePercent date in
  let radians := agePercent * 2 * Math.PI in
  let percent := 2 * Math.PI * normalize ((julian - 2451562.2) / ANOMALISTIC_MONTH) in
  60.4 - 3.3 * Math.cos percent - 0.6 * Math.cos (2 * radians - percent)
       - 0.5 * Math.cos (2 * radians).

(** Name of the lunar phase per date submitted. *)
Definition lunarPhase (date : Date) (options : option object) : LunarPhase.t :=
  let age := lunarAge date in
  if Number.lt age 1.84566173161 then LunarPhase.NEW
  else if Number.lt age 5.53698519483 then LunarPhase.WAXING_CRESCENT
  else if Number.lt age 9.22830865805 then LunarPhase.FIRST_QUARTER
  else if Number.lt age 12.91963212127 then LunarPhase.WAXING_GIBBOUS
  else if Number.lt age 16.61095558449 then LunarPhase.FULL
  else if Number.lt age 20.30227904771 then LunarPhase.WANING_GIBBOUS
  else if Number.lt age 23.99360251093 then LunarPhase.LAST_QUARTER
  else if Number.lt age 27.68492597415 then LunarPhase.WANING_CRESCENT
  else LunarPhase.NEW.

(** The message of the error thrown for an unknown phase. *)
Definition invalidPhase (rendering : string) : Error :=
  MkError ("Invalid lunar phase of " +:+ rendering +:+ " specified").

(** Emoji for specified lunar phase. *)
Definition emojiForLunarPhase (phase : LunarPhase.arg) (options : option object)
  : completion string :=
  let hemisphere := spread MoonOptionsFactory options !! "hemisphere"%string in
  let emoji :=
    if decide (hemisphere = Some (HemisphereValue Hemisphere.SOUTHERN))
    then NorthernHemisphereLunarEmoji
    else SouthernHemisphereLunarEmoji in
  match phase with
  | LunarPhase.Member LunarPhase.NEW => Return (LunarEmoji.NEW emoji)
  | LunarPhase.Member LunarPhase.WANING_CRESCENT => Return (LunarEmoji.WANING_CRESCENT emoji)
  | LunarPhase.Member LunarPhase.LAST_QUARTER => Return (LunarEmoji.LAST_QUARTER emoji)
  | LunarPhase.Member LunarPhase.WANING_GIBBOUS => Return (LunarEmoji.WANING_GIBBOUS emoji)
  | LunarPhase.Member LunarPhase.FULL => Return (LunarEmoji.FULL emoji)
  | LunarPhase.Member LunarPhase.WAXING_GIBBOUS => Return (LunarEmoji.WAXING_GIBBOUS emoji)
  | LunarPhase.Member LunarPhase.FIRST_QUARTER => Return (LunarEmoji.FIRST_QUARTER emoji)
  | LunarPhase.Member LunarPhase.WAXING_CRESCENT => Return (LunarEmoji.WAXING_CRESCENT emoji)
  | LunarPhase.Foreign rendering => Throw (invalidPhase rendering)
  end.

(** Emoji of the lunar phase per date submitted. *)
Definition lunarPhaseEmoji (date : Date) (options : option object) : completion string :=
  let phase := lunarPhase date None in
  emojiForLunarPhase (LunarPhase.Member phase) options.

(** Whether the moon is currently waxing (growing). *)
Definition isWaxing (date : Date) : bool :=
  let age := lunarAge date in
  Number.le age 14.765.

(** Whether the moon is currently waning (shrinking). *)
Definition isWaning (date : Date) : bool :=
  let age := lunarAge date in
  Number.gt age 14.765.

End Moon.

(** ** The specification's own wording, for comparison with the code *)

(** The table of section 4.3: each phase with its half-open interval of ages
    [lo, hi); the last row is the closing part of the cycle. *)
Definition phaseIntervals : list (R * R * LunarPhase.t) :=
  [ (0, 1.84566173161, LunarPhase.NEW);
    (1.84566173161, 5.53698519483, LunarPhase.WAXING_CRESCENT);
    (5.53698519483, 9.22830865805, LunarPhase.FIRST_QUARTER);
    (9.22830865805, 12.91963212127, LunarPhase.WAXING_GIBBOUS);
    (12.91963212127, 16.61095558449, LunarPhase.FULL);
    (16.61095558449, 20.30227904771, LunarPhase.WANING_GIBBOUS);
    (20.30227904771, 23.99360251093, LunarPhase.LAST_QUARTER);
    (23.99360251093, 27.68492597415, LunarPhase.WANING_CRESCENT);
    (27.68492597415, SYNODIC_MONTH, LunarPhase.NEW) ].

Definition inInterval (age : R) (row : R * R * LunarPhase.t) : Prop :=
  row.1.1 <= age < row.1.2.

(** Each interval starts where the one before it ends. *)
Fixpoint contiguousFrom (start : R) (rows : list (R * R * LunarPhase.t)) : Prop :=
  match rows with
  | [] => True
  | row :: rest => row.1.1 = start /\ row.1.1 < row.1.2 /\ contiguousFrom row.1.2 rest
  end.

(** Rounding to the nearest integer, ties away from zero. *)
Definition roundHalfAwayFromZero (x : R) : R :=
  if Rle_dec 0 x then Math.floor (x + 1 / 2) else - Math.floor (- x + 1 / 2).

(** Rounding to the nearest integer, ties to the even neighbour. *)
Definition roundHalfToEven (x : R) : R :=
  let n := Int_part x in
  let r := x - IZR n in
  if Rlt_dec r (1 / 2) then IZR n
  else if Rlt_dec (1 / 2) r then IZR n + 1
  else if Z.even n then IZR n else IZR n + 1.

Section Wording.

Context `{env : Imports}.

(** The quotient that [lunationNumber] hands to [Math.round], as the code
    computes it: synodic months since the lunation base. *)
Definition lunations (fl : R -> R) (date : Date) : R :=
  fl (fl (JulianDay_fromDate date - LUNATION_BASE_JULIAN_DAY) / fl SYNODIC_MONTH).

(** The emoji table that belongs to a hemisphere. *)
Definition tableOf (h : Hemisphere.t) : LunarEmoji.t :=
  match h with
  | Hemisphere.NORTHERN => NorthernHemisphereLunarEmoji
  | Hemisphere.SOUTHERN => SouthernHemisphereLunarEmoji
  end.

End Wording.

(** The hemisphere an options argument resolves to: its own [hemisphere]
    property when it has one, the default NORTHERN otherwise. *)
Definition resolvedHemisphere (options : option object) : value :=
  match options with
  | Some o => default (HemisphereValue Hemisphere.NORTHERN) (o !! "hemisphere"%string)
  | None => HemisphereValue Hemisphere.NORTHERN
  end.

(** ** A sample environment

    One way to fill in the imports, used to evaluate the functions at
    concrete inputs: a date is given by its Julian day, the lunation base is
    02:41 UTC on January 17, 1923 to four decimals, and the two tables hold
    the eight moon glyphs, mirrored between the hemispheres. *)

Module Sample.

Definition northern : LunarEmoji.t :=
  LunarEmoji.Build "🌑" "🌒" "🌓" "🌔" "🌕" "🌖" "🌗" "🌘".

Definition southern : LunarEmoji.t :=
  LunarEmoji.Build "🌑" "🌘" "🌗" "🌖" "🌕" "🌔" "🌓" "🌒".

Definition imports : Imports := {|
  Date := R;
  JulianDay_fromDate := fun julian => julian;
  ANOMALISTIC_MONTH := 27.55454988;
  LUNATION_BASE_JULIAN_DAY := 2423436.6118;
  NorthernHemisphereLunarEmoji := northern;
  SouthernHemisphereLunarEmoji := southern
|}.

(** The date with the given Julian day. *)
Definition date (julian : R) : @Date imports := julian.

(** Exact arithmetic: the rounding that changes nothing. *)
Definition exact (x : R) : R := x.

(** Options objects. *)
Definition southernOptions : object :=
  {[ "hemisphere"%string := HemisphereValue Hemisphere.SOUTHERN ]}.

Definition northernOptions : object :=
  {[ "hemisphere"%string := HemisphereValue Hemisphere.NORTHERN ]}.

Definition strayOptions : object :=
  {[ "hemisphere"%string := OtherValue "undefined";
     "zoom"%string := OtherValue "2" ]}.

End Sample.

(** ** Evaluation on binary64 numbers

    The expression of [lunationNumber] on IEEE-754 binary64 numbers, the
    [number] of JavaScript, to evaluate it at concrete doubles.  A decimal
    literal is the double nearest to it, as in the source. *)

Module Double.

Local Open Scope float_scope.

(** The double of an integer (exact up to 2^53 in magnitude). *)
Definition ofZ (z : Z) : float :=
  if (z <? 0)%Z then - of_uint63 (Uint63.of_Z (- z)) else of_uint63 (Uint63.of_Z z).

(** [Math.round] of a double: the integer [floor(x + 1/2)] of the exact sum,
    with -0 for a result of zero from a negative [x]; a double without
    fraction bits, a zero, an infinity and [NaN] are returned as they are. *)
Definition round (x : float) : float :=
  match Prim2SF x with
  | S754_finite s m e =>
      if (0 <=? e)%Z then x
      else
        let z := if s then Z.neg m else Z.pos m in
        let r := ((2 * z + 2 ^ (- e)) / 2 ^ (1 - e))%Z in
        if (r =? 0)%Z then (if s then neg_zero else zero) else ofZ r
  | _ => x
  end.

Definition SYNODIC_MONTH : float := 29.53058770576.

Section Moon.

Variable Date : Type.
Variable JulianDay_fromDate : Date -> float.
Variable LUNATION_BASE_JULIAN_DAY : float.

(** The quotient handed to [Math.round]. *)
Definition lunations (date : Date) : float :=
  (JulianDay_fromDate date - LUNATION_BASE_JULIAN_DAY) / SYNODIC_MONTH.

(** Brown Lunation Number. *)
Definition lunationNumber (date : Date) : float :=
  round ((JulianDay_fromDate date - LUNATION_BASE_JULIAN_DAY) / SYNODIC_MONTH) + 1.

End Moon.

(** The value of a finite double as a fraction [numerator / 2^k], and as a
    real number ([NaN] and the infinities, which have none, are given 0). *)
Definition fraction (x : float) : Z * Z :=
  match Prim2SF x with
  | S754_finite s m e =>
      let z := if s then Z.neg m else Z.pos m in
      if (0 <=? e)%Z then ((z * 2 ^ e)%Z, 1%Z) else (z, (2 ^ (- e))%Z)
  | _ => (0%Z, 1%Z)
  end.

Definition toR (x : float) : R :=
  (IZR (fst (fraction x)) / IZR (snd (fraction x)))%R.

(** A sample environment: a date is given by its Julian day, a double; the
    lunation base is the one of [Sample].  [fromUnixMillis] is the Julian day
    of an instant given in milliseconds since the Unix epoch (UTC), which
    falls on Julian day 2440587.5. *)
Definition julianDay (julian : float) : float := julian.

Definition LUNATION_BASE_JULIAN_DAY : float := 2423436.6118.

Definition fromUnixMillis (ms : Z) : float := ofZ ms / 86400000 + 2440587.5.

End Double.

(** * Properties *)

(** ** Facts about the number operations *)

Section NumberFacts.

Lemma lt_true x y : Number.lt x y = true <-> x < y.
Proof. unfold Number.lt. destruct (Rlt_dec x y); split; intros; try easy. Qed.

Lemma lt_false x y : Number.lt x y = false <-> y <= x.
Proof.
  unfold Number.lt. destruct (Rlt_dec x y); split; intros; try easy; lra.
Qed.

Lemma le_true x y : Number.le x y = true <-> x <= y.
Proof. unfold Number.le. destruct (Rle_dec x y); split; intros; try easy. Qed.

Lemma le_false x y : Number.le x y = false <-> y < x.
Proof.
  unfold Number.le. destruct (Rle_dec x y); split; intros; try easy; lra.
Qed.

Lemma gt_true x y : Number.gt x y = true <-> x > y.
Proof. unfold Number.gt. rewrite lt_true. reflexivity. Qed.

Lemma gt_is_not_le x y : Number.gt x y = negb (Number.le x y).
Proof.
  unfold Number.gt, Number.lt, Number.le.
  destruct (Rlt_dec y x), (Rle_dec x y); simpl; try reflexivity; lra.
Qed.

Lemma floor_bounds x : Math.floor x <= x < Math.floor x + 1.
Proof.
  unfold Math.floor. destruct (base_Int_part x) as [H1 H2]. split; lra.
Qed.

Lemma floor_unique (n : Z) x : IZR n <= x < IZR n + 1 -> Math.floor x = IZR n.
Proof.
  intros [H1 H2]. unfold Math.floor. f_equal. symmetry.
  apply Int_part_spec. split; lra.
Qed.


Lemma normalize_range x : 0 <= normalize x < 1.
Proof. unfold normalize. pose proof (floor_bounds x). lra. Qed.

Lemma SYNODIC_MONTH_pos : 0 < SYNODIC_MONTH.
Proof. unfold SYNODIC_MONTH. lra. Qed.

End NumberFacts.

(** ** Age of the moon, waxing and waning *)

Section Age.

Context `{env : Imports}.

Lemma lunarAgePercent_unit (date : Date) : 0 <= lunarAgePercent date < 1.
Proof. apply normalize_range. Qed.

Lemma lunarAge_in_cycle (date : Date) : 0 <= lunarAge date < SYNODIC_MONTH.
Proof.
  pose proof (lunarAgePercent_unit date) as Hp. pose proof SYNODIC_MONTH_pos.
  unfold lunarAge. cbv zeta. nra.
Qed.

(** C3. For every date, the age percentage lies in [0, 1) and the age in
    [0, 29.53058770576), because [normalize] maps every real number, negative
    ones included, into [0, 1); and the age is the percentage times
    [SYNODIC_MONTH]. *)
Theorem lunarAge_range (date : Date) :
  (forall x : R, 0 <= normalize x < 1) /\
  0 <= lunarAgePercent date < 1 /\
  0 <= lunarAge date < 29.53058770576 /\
  lunarAge date = lunarAgePercent date * SYNODIC_MONTH.
Proof.
  split; [exact normalize_range |].
  split; [apply lunarAgePercent_unit |].
  split; [apply lunarAge_in_cycle | reflexivity].
Qed.

(** C4. Exactly one of [isWaxing] and [isWaning] holds for a date: waxing
    means an age of at most 14.765 (the midpoint included), waning an age
    above it. *)
Theorem waxing_xor_waning (date : Date) :
  (isWaxing date = true <-> lunarAge date <= 14.765) /\
  (isWaning date = true <-> lunarAge date > 14.765) /\
  isWaning date = negb (isWaxing date) /\
  isWaxing date <> isWaning date.
Proof.
  unfold isWaxing, isWaning. cbv zeta.
  split; [apply le_true|]. split; [apply gt_true|].
  rewrite gt_is_not_le. split; [reflexivity|].
  destruct (Number.le _ _); discriminate.
Qed.

End Age.

(** ** Phase classification *)

Section Phase.

Context `{env : Imports}.

(** Turns the outcome of each comparison of the threshold chain into an
    inequality between real numbers. *)
Ltac thresholds :=
  repeat match goal with
  | Hc : Number.lt _ _ = true |- _ => apply lt_true in Hc
  | Hc : Number.lt _ _ = false |- _ => apply lt_false in Hc
  end.

Ltac classify :=
  unfold lunarPhase; cbv zeta;
  repeat (destruct (Number.lt _ _) eqn:?; thresholds; try reflexivity; try lra).

Lemma phaseIntervals_contiguous : contiguousFrom 0 phaseIntervals.
Proof. unfold phaseIntervals, SYNODIC_MONTH. simpl. repeat split; lra. Qed.

(** An age of the cycle lies in one row of the table, and in no other. *)
Lemma phaseIntervals_partition (age : R) :
  0 <= age < SYNODIC_MONTH ->
  exists row, In row phaseIntervals /\ inInterval age row /\
    forall row', In row' phaseIntervals -> inInterval age row' -> row' = row.
Proof.
  unfold SYNODIC_MONTH. intros Hage.
  assert (Hcases :
    age < 1.84566173161 \/ 1.84566173161 <= age < 5.53698519483 \/
    5.53698519483 <= age < 9.22830865805 \/ 9.22830865805 <= age < 12.91963212127 \/
    12.91963212127 <= age < 16.61095558449 \/ 16.61095558449 <= age < 20.30227904771 \/
    20.30227904771 <= age < 23.99360251093 \/ 23.99360251093 <= age < 27.68492597415 \/
    27.68492597415 <= age) by lra.
  unfold phaseIntervals, SYNODIC_MONTH, inInterval.
  destruct Hcases as [Hc|[Hc|[Hc|[Hc|[Hc|[Hc|[Hc|[Hc|Hc]]]]]]]];
    [ eexists (0, _, _) | eexists (1.84566173161, _, _) | eexists (5.53698519483, _, _)
    | eexists (9.22830865805, _, _) | eexists (12.91963212127, _, _)
    | eexists (16.61095558449, _, _) | eexists (20.30227904771, _, _)
    | eexists (23.99360251093, _, _) | eexists (27.68492597415, _, _) ];
    (split; [simpl; tauto |]);
    (split; [simpl; lra |]);
    intros row' Hin Hrow'; simpl in Hin;
    repeat (destruct Hin as [<- | Hin]); simpl in Hrow';
    solve [ reflexivity | lra | contradiction ].
Qed.

(** C2. [lunarPhase] classifies the age of the moon by the eight ascending
    thresholds: each half-open interval of ages gets its phase, and an age of
    27.68492597415 or more is NEW again.  The intervals follow one another
    from 0 to [SYNODIC_MONTH] without gap or overlap, and the phase returned
    is the one of the single interval the age lies in. *)
Theorem lunarPhase_intervals (date : Date) (options : option object) :
  let age := lunarAge date in
  let phase := lunarPhase date options in
  (0 <= age < 1.84566173161 -> phase = LunarPhase.NEW) /\
  (1.84566173161 <= age < 5.53698519483 -> phase = LunarPhase.WAXING_CRESCENT) /\
  (5.53698519483 <= age < 9.22830865805 -> phase = LunarPhase.FIRST_QUARTER) /\
  (9.22830865805 <= age < 12.91963212127 -> phase = LunarPhase.WAXING_GIBBOUS) /\
  (12.91963212127 <= age < 16.61095558449 -> phase = LunarPhase.FULL) /\
  (16.61095558449 <= age < 20.30227904771 -> phase = LunarPhase.WANING_GIBBOUS) /\
  (20.30227904771 <= age < 23.99360251093 -> phase = LunarPhase.LAST_QUARTER) /\
  (23.99360251093 <= age < 27.68492597415 -> phase = LunarPhase.WANING_CRESCENT) /\
  (27.68492597415 <= age -> phase = LunarPhase.NEW) /\
  contiguousFrom 0 phaseIntervals /\
  (forall a : R, 0 <= a < SYNODIC_MONTH ->
     exists row, In row phaseIntervals /\ inInterval a row /\
       forall row', In row' phaseIntervals -> inInterval a row' -> row' = row) /\
  (exists row, In row phaseIntervals /\ inInterval age row /\ phase = row.2).
Proof.
  cbv zeta.
  repeat (split; [intros Hage; classify |]).
  split; [exact phaseIntervals_contiguous |].
  split; [exact phaseIntervals_partition |].
  destruct (phaseIntervals_partition (lunarAge date)) as (row & Hin & Hrow & _);
    [apply lunarAge_in_cycle |].
  exists row. split; [exact Hin |]. split; [exact Hrow |].
  unfold phaseIntervals in Hin. simpl in Hin. unfold inInterval in Hrow.
  repeat (destruct Hin as [<- | Hin]); try contradiction; simpl in Hrow |- *;
    unfold SYNODIC_MONTH in Hrow; classify.
Qed.

(** C9. The options handed to [lunarPhase] have no effect on its result. *)
Theorem lunarPhase_ignores_options (date : Date) (o1 o2 : option object) :
  lunarPhase date o1 = lunarPhase date o2.
Proof. reflexivity. Qed.

End Phase.

(** ** Lunation number *)

Section Lunation.

Context `{env : Imports}.

(** The rounding to a double.  Of it the proofs use that it keeps the order
    and that it leaves an integer of magnitude up to 2^53 as it is; rounding
    to the nearest double does both as long as nothing overflows. *)
Variable fl : R -> R.
Hypothesis fl_monotone : forall x y : R, x <= y -> fl x <= fl y.
Hypothesis fl_integer : forall n : Z, (Z.abs n <= 2 ^ 53)%Z -> fl (IZR n) = IZR n.

Lemma round_nearest x :
  exists n : Z, Math.round x = IZR n /\ IZR n - 1 / 2 <= x < IZR n + 1 / 2.
Proof.
  exists (Int_part (x + 1 / 2)). split; [reflexivity |].
  pose proof (floor_bounds (x + 1 / 2)) as Hb. unfold Math.floor in Hb. lra.
Qed.


(** Away from a tie, rounding half away from zero gives the nearest integer
    as well. *)
Lemma round_away_off_tie x :
  x + 1 / 2 <> Math.floor (x + 1 / 2) -> Math.round x = roundHalfAwayFromZero x.
Proof.
  intros Htie. unfold roundHalfAwayFromZero, Math.round.
  destruct (Rle_dec 0 x) as [Hpos | Hneg]; [reflexivity |].
  pose proof (floor_bounds (x + 1 / 2)) as Hb.
  rewrite (floor_unique (- Int_part (x + 1 / 2)) (- x + 1 / 2)).
  - rewrite opp_IZR. unfold Math.floor. lra.
  - rewrite opp_IZR. unfold Math.floor in Hb, Htie. lra.
Qed.

Lemma round_away_nonneg x : 0 <= x -> Math.round x = roundHalfAwayFromZero x.
Proof.
  intros Hpos. unfold roundHalfAwayFromZero.
  destruct (Rle_dec 0 x); [reflexivity | contradiction].
Qed.



(** C5, as the code has it.  [lunationNumber] is [Math.round] of the
    quotient [(julianDay - LUNATION_BASE_JULIAN_DAY) / SYNODIC_MONTH], taken
    as the code computes it, plus one.  [Math.round] gives the nearest
    integer and takes a tie at a half-cycle boundary to the integer above.
    That is rounding half away from zero for a quotient that is not negative,
    and for any quotient that is not a tie. *)
Theorem lunationNumber_rounding (date : Date) :
  let q := lunations fl date in
  lunationNumber fl date = fl (Math.floor (q + 1 / 2) + 1) /\
  (exists n : Z,
     Math.round q = IZR n /\ IZR n - 1 / 2 <= q < IZR n + 1 / 2 /\
     ((Z.abs (n + 1) <= 2 ^ 53)%Z -> lunationNumber fl date = IZR n + 1)) /\
  (0 <= q -> lunationNumber fl date = fl (roundHalfAwayFromZero q + 1)) /\
  (q + 1 / 2 <> Math.floor (q + 1 / 2) ->
     lunationNumber fl date = fl (roundHalfAwayFromZero q + 1)).
Proof.
  cbv zeta. unfold lunationNumber. fold (lunations fl date).
  split; [reflexivity |]. split; [| split].
  - destruct (round_nearest (lunations fl date)) as (n & Hn & Hb).
    exists n. split; [exact Hn |]. split; [exact Hb |].
    intros Hsmall. rewrite Hn, <- plus_IZR. apply fl_integer, Hsmall.
  - intros Hpos. rewrite (round_away_nonneg _ Hpos). reflexivity.
  - intros Htie. rewrite (round_away_off_tie _ Htie). reflexivity.
Qed.


End Lunation.

(** ** Distance *)

Section Distance.

Context `{env : Imports}.

(** The three-cosine expression of [lunarDistance] for any two angles. *)
Lemma three_cosines_range (p q : R) :
  56 <= 60.4 - 3.3 * cos p - 0.6 * cos (q - p) - 0.5 * cos q <= 63.8.
Proof.
  rewrite cos_minus.
  pose proof (sin2_cos2 p) as Hp. pose proof (sin2_cos2 q) as Hq.
  pose proof (COS_bound p) as Bp. pose proof (COS_bound q) as Bq.
  unfold Rsqr in Hp, Hq.
  set (x := cos p) in *. set (y := sin p) in *.
  set (u := cos q) in *. set (v := sin q) in *.
  split.
  - pose proof (Rle_0_sqr (u - x)) as S1. pose proof (Rle_0_sqr (v - y)) as S2.
    unfold Rsqr in S1, S2. nra.
  - pose proof (Rle_0_sqr (u + 6 * x + 5)) as S1.
    pose proof (Rle_0_sqr (v + 6 * y)) as S2.
    unfold Rsqr in S1, S2. nra.
Qed.

(** C7. [lunarDistance] is the three-cosine expression in the synodic angle
    [R = lunarAgePercent * 2π] and the anomalistic angle [P]; its value lies
    between 56.0 and 63.8 Earth radii for every date. *)
Theorem lunarDistance_range (date : Date) :
  let R_ := lunarAgePercent date * (2 * Math.PI) in
  let P :=
    2 * Math.PI * normalize ((JulianDay_fromDate date - 2451562.2) / ANOMALISTIC_MONTH) in
  lunarDistance date =
    60.4 - 3.3 * Math.cos P - 0.6 * Math.cos (2 * R_ - P) - 0.5 * Math.cos (2 * R_) /\
  56 <= lunarDistance date <= 63.8.
Proof.
  cbv zeta. split.
  - unfold lunarDistance. cbv zeta.
    replace (lunarAgePercent date * 2 * Math.PI)
      with (lunarAgePercent date * (2 * Math.PI)) by ring.
    reflexivity.
  - unfold lunarDistance, Math.cos. cbv zeta. apply three_cosines_range.
Qed.

End Distance.

(** ** Emoji *)

Section Emoji.

Context `{env : Imports}.

Lemma spread_hemisphere (options : option object) :
  spread MoonOptionsFactory options !! "hemisphere"%string
  = Some (resolvedHemisphere options).
Proof.
  unfold spread, resolvedHemisphere, MoonOptionsFactory.
  destruct options as [o |]; [| apply lookup_singleton_eq].
  rewrite lookup_union, lookup_singleton_eq.
  destruct (o !! "hemisphere"%string); reflexivity.
Qed.

(** The table [emojiForLunarPhase] reads, by the resolved hemisphere. *)
Lemma emojiForLunarPhase_table (phase : LunarPhase.t) (options : option object) :
  emojiForLunarPhase (LunarPhase.Member phase) options =
    Return (LunarEmoji.entry
      (if decide (resolvedHemisphere options = HemisphereValue Hemisphere.SOUTHERN)
       then NorthernHemisphereLunarEmoji else SouthernHemisphereLunarEmoji) phase).
Proof.
  unfold emojiForLunarPhase. cbv zeta. rewrite spread_hemisphere.
  destruct (decide (resolvedHemisphere options = _)) as [Heq | Hne].
  - rewrite decide_True by (f_equal; exact Heq). destruct phase; reflexivity.
  - rewrite decide_False by (intros [= Heq]; contradiction).
    destruct phase; reflexivity.
Qed.

(** C1. [emojiForLunarPhase] reads the Northern table when the resolved
    hemisphere is SOUTHERN and the Southern table otherwise, the default
    included: for each of the eight phases the glyph is the entry of the
    table of the opposite hemisphere. *)
Theorem emoji_table_of_opposite_hemisphere
    (phase : LunarPhase.t) (options : option object) :
  let glyph := emojiForLunarPhase (LunarPhase.Member phase) options in
  (spread MoonOptionsFactory options !! "hemisphere"%string
     = Some (resolvedHemisphere options)) /\
  (resolvedHemisphere options = HemisphereValue Hemisphere.SOUTHERN ->
     glyph = Return (LunarEmoji.entry NorthernHemisphereLunarEmoji phase)) /\
  (resolvedHemisphere options <> HemisphereValue Hemisphere.SOUTHERN ->
     glyph = Return (LunarEmoji.entry SouthernHemisphereLunarEmoji phase)) /\
  (forall h : Hemisphere.t, resolvedHemisphere options = HemisphereValue h ->
     glyph = Return (LunarEmoji.entry (tableOf (Hemisphere.opposite h)) phase)) /\
  (options = None ->
     glyph = Return (LunarEmoji.entry SouthernHemisphereLunarEmoji phase)).
Proof.
  cbv zeta. rewrite emojiForLunarPhase_table.
  split; [apply spread_hemisphere |].
  split; [intros Heq; rewrite decide_True by exact Heq; reflexivity |].
  split; [intros Hne; rewrite decide_False by exact Hne; reflexivity |].
  split.
  - intros h Heq. rewrite Heq. destruct h; reflexivity.
  - intros ->. reflexivity.
Qed.

(** C8. [emojiForLunarPhase] throws exactly when its phase argument is no
    member of [LunarPhase], and then the error names the value; for each of
    the eight members it returns a glyph, whatever the options.
    [lunarPhaseEmoji], the one other function on whose path the [throw] lies,
    returns a glyph for every date.  The remaining functions contain no
    [throw] and call nothing that throws, which is why they are embedded as
    plain functions of the date. *)
Theorem emoji_throws_iff_foreign
    (phase : LunarPhase.arg) (options : option object) :
  ((exists e, emojiForLunarPhase phase options = Throw e) <->
     (forall p : LunarPhase.t, phase <> LunarPhase.Member p)) /\
  (forall p : LunarPhase.t,
     exists glyph, emojiForLunarPhase (LunarPhase.Member p) options = Return glyph) /\
  (forall rendering : string,
     emojiForLunarPhase (LunarPhase.Foreign rendering) options
     = Throw (invalidPhase rendering)) /\
  (forall date : Date, exists glyph, lunarPhaseEmoji date options = Return glyph).
Proof.
  split; [| split; [| split]].
  - split.
    + intros [e He] p ->. rewrite emojiForLunarPhase_table in He. discriminate.
    + intros Hforeign. destruct phase as [p | rendering].
      * exfalso. apply (Hforeign p). reflexivity.
      * eexists. reflexivity.
  - intros p. eexists. apply emojiForLunarPhase_table.
  - reflexivity.
  - intros date. eexists. unfold lunarPhaseEmoji. cbv zeta.
    apply emojiForLunarPhase_table.
Qed.

(** C10. [lunarPhaseEmoji] is [emojiForLunarPhase] after [lunarPhase]: the
    options go to the lookup unchanged, and the classification gets none (and
    would not depend on them). *)
Theorem lunarPhaseEmoji_composition (date : Date) (options : option object) :
  lunarPhaseEmoji date options
    = emojiForLunarPhase (LunarPhase.Member (lunarPhase date None)) options /\
  (forall o : option object,
     lunarPhaseEmoji date options
       = emojiForLunarPhase (LunarPhase.Member (lunarPhase date o)) options).
Proof. split; [reflexivity | intros o; reflexivity]. Qed.

End Emoji.

(** ** The functions at concrete inputs (sample environment) *)

Section Evaluation.

Import Sample.

Local Existing Instance imports.

(** The lunation number and its quotient on doubles, dates being given by
    their Julian day. *)
Local Abbreviation lunations64 :=
  (Double.lunations float Double.julianDay Double.LUNATION_BASE_JULIAN_DAY).
Local Abbreviation lunationNumber64 :=
  (Double.lunationNumber float Double.julianDay Double.LUNATION_BASE_JULIAN_DAY).

(** Evaluates the exact value of a double. *)
Ltac double_value :=
  unfold Double.toR;
  match goal with
  | |- context [Double.fraction ?x] =>
      let p := eval vm_compute in (Double.fraction x) in
      replace (Double.fraction x) with p by (vm_compute; reflexivity)
  end;
  cbn [fst snd].

(** In the sample environment the date [a] days after the reference new moon
    (Julian day 2451550.1) has age [a]. *)
Lemma sample_lunarAge (a : R) :
  0 <= a < SYNODIC_MONTH -> lunarAge (date (2451550.1 + a)) = a.
Proof.
  intros Ha. pose proof SYNODIC_MONTH_pos as Hs.
  unfold lunarAge, lunarAgePercent, normalize, date. cbv zeta. simpl.
  replace (2451550.1 + a - 2451550.1) with a by lra.
  assert (0 <= a / SYNODIC_MONTH < 1) as Hq.
  { split.
    - apply Rmult_le_pos; [lra |]. apply Rlt_le, Rinv_0_lt_compat, Hs.
    - apply (Rmult_lt_reg_r SYNODIC_MONTH); [exact Hs |].
      unfold Rdiv. rewrite Rmult_assoc, Rinv_l by lra. lra. }
  rewrite (floor_unique 0) by lra. field. lra.
Qed.

Lemma sample_lunations (julian : R) :
  lunations exact (date julian) = (julian - 2423436.6118) / SYNODIC_MONTH.
Proof. reflexivity. Qed.


Lemma exact_integer (n : Z) : (Z.abs n <= 2 ^ 53)%Z -> exact (IZR n) = IZR n.
Proof. reflexivity. Qed.

(** [normalize] of a negative number is its distance above the integer
    below it, not a truncating remainder. *)
Example normalize_negative : normalize (-0.25) = 0.75.
Proof. unfold normalize. rewrite (floor_unique (-1)); lra. Qed.

(** The day of the reference new moon: age 0, phase NEW, waxing. *)
Example new_moon :
  lunarAge (date 2451550.1) = 0 /\
  lunarPhase (date 2451550.1) None = LunarPhase.NEW /\
  isWaxing (date 2451550.1) = true /\ isWaning (date 2451550.1) = false.
Proof.
  assert (lunarAge (date 2451550.1) = 0) as Hage.
  { replace 2451550.1 with (2451550.1 + 0) by lra.
    apply sample_lunarAge. unfold SYNODIC_MONTH. lra. }
  split; [exact Hage |].
  unfold lunarPhase, isWaxing, isWaning. cbv zeta. rewrite gt_is_not_le, Hage.
  assert (Number.lt 0 1.84566173161 = true) as -> by (apply lt_true; lra).
  assert (Number.le 0 14.765 = true) as -> by (apply le_true; lra).
  repeat split.
Qed.

(** The midpoint 14.765 of the cycle is waxing, not waning. *)
Example midpoint_is_waxing :
  isWaxing (date (2451550.1 + 14.765)) = true /\
  isWaning (date (2451550.1 + 14.765)) = false.
Proof.
  assert (lunarAge (date (2451550.1 + 14.765)) = 14.765) as Hage
    by (apply sample_lunarAge; unfold SYNODIC_MONTH; lra).
  unfold isWaxing, isWaning. cbv zeta. rewrite gt_is_not_le, Hage.
  assert (Number.le 14.765 14.765 = true) as -> by (apply le_true; lra).
  split; reflexivity.
Qed.

(** Witness of C2: an age of 14.765 days lies in [12.91963212127,
    16.61095558449), and the phase is FULL. *)
Lemma lunarPhase_intervals_witness :
  lunarPhase (date (2451550.1 + 14.765)) (Some southernOptions) = LunarPhase.FULL.
Proof.
  destruct (lunarPhase_intervals (date (2451550.1 + 14.765)) (Some southernOptions))
    as (_ & _ & _ & _ & Hfull & _).
  apply Hfull. rewrite sample_lunarAge; unfold SYNODIC_MONTH; lra.
Defined.

(** Witness of C5 as amended: in exact arithmetic, on Julian day 2460000 the
    quotient is positive and the lunation number is the one rounding half
    away from zero gives. *)
Lemma lunationNumber_rounding_witness :
  lunationNumber exact (date 2460000)
    = exact (roundHalfAwayFromZero (lunations exact (date 2460000)) + 1).
Proof.
  destruct (lunationNumber_rounding exact exact_integer (date 2460000))
    as (_ & _ & Hpos & _).
  apply Hpos. rewrite sample_lunations. unfold SYNODIC_MONTH. lra.
Defined.

(** Counterexample of C5 as stated, on doubles.  At 11:36:47.576 UTC on
    November 6, 1604 (-11523039792424 ms of Unix time), 3935 and a half
    synodic months before the lunation base, the quotient the code computes
    is the double -3935.5, a tie.  [Math.round] takes it to -3935 and the
    lunation number is -3934, as [floor(q + 1/2) + 1] says, while rounding
    half away from zero and rounding half to even both take the quotient to
    -3936 and would give -3935. *)
Lemma lunationNumber_tie_counterexample :
  Double.toR (lunations64 (Double.fromUnixMillis (-11523039792424))) = -3935.5 /\
  Double.toR (lunationNumber64 (Double.fromUnixMillis (-11523039792424))) = -3934 /\
  Math.round
    (Double.toR (lunations64 (Double.fromUnixMillis (-11523039792424)))) + 1 = -3934 /\
  roundHalfAwayFromZero
    (Double.toR (lunations64 (Double.fromUnixMillis (-11523039792424)))) + 1 = -3935 /\
  roundHalfToEven
    (Double.toR (lunations64 (Double.fromUnixMillis (-11523039792424)))) + 1 = -3935 /\
  ~ (Double.toR (lunationNumber64 (Double.fromUnixMillis (-11523039792424)))
       = roundHalfAwayFromZero
           (Double.toR (lunations64 (Double.fromUnixMillis (-11523039792424)))) + 1 \/
     Double.toR (lunationNumber64 (Double.fromUnixMillis (-11523039792424)))
       = roundHalfToEven
           (Double.toR (lunations64 (Double.fromUnixMillis (-11523039792424)))) + 1).
Proof.
  assert (Double.toR (lunations64 (Double.fromUnixMillis (-11523039792424))) = -3935.5)
    as Hq by (double_value; lra).
  assert (Double.toR (lunationNumber64 (Double.fromUnixMillis (-11523039792424))) = -3934)
    as Hn by (double_value; lra).
  assert (Math.round (-3935.5) + 1 = -3934) as Hround
    by (unfold Math.round; rewrite (floor_unique (-3935)); lra).
  assert (roundHalfAwayFromZero (-3935.5) + 1 = -3935) as Haway.
  { unfold roundHalfAwayFromZero. destruct (Rle_dec 0 (-3935.5)) as [Hle |]; [lra |].
    rewrite (floor_unique 3936); lra. }
  assert (roundHalfToEven (-3935.5) + 1 = -3935) as Heven.
  { unfold roundHalfToEven. cbv zeta.
    assert (Int_part (-3935.5) = (-3936)%Z) as ->
      by (symmetry; apply Int_part_spec; lra).
    destruct (Rlt_dec (-3935.5 - -3936) (1 / 2)); [lra |].
    destruct (Rlt_dec (1 / 2) (-3935.5 - -3936)); [lra |].
    simpl. lra. }
  rewrite Hq, Hn. repeat (split; [assumption || reflexivity |]).
  rewrite Haway, Heven. intros [Hc | Hc]; lra.
Qed.



(** Witness of C1: with [{ hemisphere: SOUTHERN }] the waxing crescent is the
    glyph of the Northern table. *)
Lemma emoji_table_of_opposite_hemisphere_witness :
  emojiForLunarPhase (LunarPhase.Member LunarPhase.WAXING_CRESCENT)
    (Some southernOptions) = Return "🌒"%string.
Proof.
  destruct (emoji_table_of_opposite_hemisphere LunarPhase.WAXING_CRESCENT
              (Some southernOptions)) as (_ & Hsouth & _).
  apply Hsouth. reflexivity.
Defined.

(** The default and an options object without a usable hemisphere both lead
    to the Southern table; a value that is no phase is refused. *)
Example emoji_samples :
  emojiForLunarPhase (LunarPhase.Member LunarPhase.WAXING_CRESCENT) None
    = Return "🌘"%string /\
  emojiForLunarPhase (LunarPhase.Member LunarPhase.WAXING_CRESCENT)
    (Some northernOptions) = Return "🌘"%string /\
  emojiForLunarPhase (LunarPhase.Member LunarPhase.WAXING_CRESCENT)
    (Some strayOptions) = Return "🌘"%string /\
  emojiForLunarPhase (LunarPhase.Foreign "Blue") None
    = Throw (MkError "Invalid lunar phase of Blue specified").
Proof. repeat split; vm_compute; reflexivity. Qed.

End Evaluation.

(** * Further properties of [src/Moon.ts] *)

(** ** Phases and the waxing and waning flags *)

Section PhaseBands.

Context `{env : Imports}.

Ltac compared :=
  repeat match goal with
  | Hc : Number.lt _ _ = true |- _ => apply lt_true in Hc
  | Hc : Number.lt _ _ = false |- _ => apply lt_false in Hc
  | Hc : Number.le _ _ = true |- _ => apply le_true in Hc
  | Hc : Number.le _ _ = false |- _ => apply le_false in Hc
  end.

(** Decides the comparisons of the threshold chain in turn. *)
Ltac chain :=
  repeat (destruct (Number.lt _ _) eqn:?; compared; cbv iota in *).

(** Closes a case by the phase returned or by the inequalities gathered. *)
Ltac settle :=
  try discriminate; try reflexivity; try lra;
  try (left; lra); try (right; lra).

(** Splits a conjunction of equivalences into its directions. *)
Ltac directions :=
  repeat match goal with
         | |- _ /\ _ => split
         | |- _ <-> _ => split
         | |- _ -> _ => intro
         | Hor : _ = _ \/ _ |- _ => destruct Hor
         | Hor : _ < _ \/ _ |- _ => destruct Hor
         end.

(** X5. The age ranges in which [lunarPhase] returns a phase, read backwards:
    each of the seven phases other than NEW is returned exactly on its
    interval of ages, and NEW exactly below 1.84566173161 or from
    27.68492597415 on. *)
Theorem lunarPhase_inverse (date : Date) (options : option object) :
  let age := lunarAge date in
  let phase := lunarPhase date options in
  (phase = LunarPhase.NEW <-> age < 1.84566173161 \/ 27.68492597415 <= age) /\
  (phase = LunarPhase.WAXING_CRESCENT <-> 1.84566173161 <= age < 5.53698519483) /\
  (phase = LunarPhase.FIRST_QUARTER <-> 5.53698519483 <= age < 9.22830865805) /\
  (phase = LunarPhase.WAXING_GIBBOUS <-> 9.22830865805 <= age < 12.91963212127) /\
  (phase = LunarPhase.FULL <-> 12.91963212127 <= age < 16.61095558449) /\
  (phase = LunarPhase.WANING_GIBBOUS <-> 16.61095558449 <= age < 20.30227904771) /\
  (phase = LunarPhase.LAST_QUARTER <-> 20.30227904771 <= age < 23.99360251093) /\
  (phase = LunarPhase.WANING_CRESCENT <-> 23.99360251093 <= age < 27.68492597415).
Proof.
  cbv zeta. unfold lunarPhase. cbv zeta.
  generalize (lunarAge date). intros age.
  directions; chain; settle.
Qed.

(** X7. The flags agree with the names of the phases: on a date classified
    WAXING_CRESCENT, FIRST_QUARTER or WAXING_GIBBOUS [isWaxing] holds, and on
    one classified WANING_GIBBOUS, LAST_QUARTER or WANING_CRESCENT [isWaning]
    holds.  NEW straddles the flags: a NEW date is waxing exactly when its
    age is below 1.84566173161, and waning in the closing part of the
    cycle. *)
Theorem flags_agree_with_phase (date : Date) (options : option object) :
  let phase := lunarPhase date options in
  (phase = LunarPhase.WAXING_CRESCENT \/ phase = LunarPhase.FIRST_QUARTER \/
   phase = LunarPhase.WAXING_GIBBOUS ->
     isWaxing date = true /\ isWaning date = false) /\
  (phase = LunarPhase.WANING_GIBBOUS \/ phase = LunarPhase.LAST_QUARTER \/
   phase = LunarPhase.WANING_CRESCENT ->
     isWaxing date = false /\ isWaning date = true) /\
  (phase = LunarPhase.NEW ->
     (isWaxing date = true <-> lunarAge date < 1.84566173161) /\
     (isWaning date = true <-> 27.68492597415 <= lunarAge date)).
Proof.
  cbv zeta. unfold lunarPhase, isWaxing, isWaning. cbv zeta.
  rewrite gt_is_not_le. generalize (lunarAge date). intros age.
  destruct (Number.le age 14.765) eqn:Hle; cbv [negb];
    chain; directions; settle.
Qed.

End PhaseBands.

(** ** Options of the emoji lookup *)

Section EmojiOptions.

Context `{env : Imports}.

Lemma resolvedHemisphere_own (options : option object) :
  resolvedHemisphere options
  = default (HemisphereValue Hemisphere.NORTHERN)
      (options ≫= (fun o => o !! "hemisphere"%string)).
Proof. destruct options; reflexivity. Qed.

Lemma emojiForLunarPhase_resolved
    (phase : LunarPhase.arg) (o1 o2 : option object) :
  resolvedHemisphere o1 = resolvedHemisphere o2 ->
  emojiForLunarPhase phase o1 = emojiForLunarPhase phase o2.
Proof.
  intros Heq. unfold emojiForLunarPhase. cbv zeta.
  rewrite !spread_hemisphere, Heq. reflexivity.
Qed.

(** X8. Of an options object [emojiForLunarPhase] uses the [hemisphere]
    property alone: two options arguments with the same [hemisphere] property
    (or both without one) give the same result whatever else they hold, and
    an argument whose [hemisphere] is missing or anything but SOUTHERN gives
    the result of a call without options. *)
Theorem emoji_uses_hemisphere_only
    (phase : LunarPhase.arg) (o1 o2 : option object) :
  (o1 ≫= (fun o => o !! "hemisphere"%string)
     = o2 ≫= (fun o => o !! "hemisphere"%string) ->
   emojiForLunarPhase phase o1 = emojiForLunarPhase phase o2) /\
  (o1 ≫= (fun o => o !! "hemisphere"%string)
     <> Some (HemisphereValue Hemisphere.SOUTHERN) ->
   emojiForLunarPhase phase o1 = emojiForLunarPhase phase None).
Proof.
  split.
  - intros Heq. apply emojiForLunarPhase_resolved.
    rewrite !resolvedHemisphere_own, Heq. reflexivity.
  - intros Hne. unfold emojiForLunarPhase. cbv zeta.
    rewrite !spread_hemisphere, !resolvedHemisphere_own.
    destruct (o1 ≫= (fun o => o !! "hemisphere"%string)) as [v |] eqn:Hown;
      [| reflexivity].
    repeat case_decide; simpl in *; congruence || reflexivity.
Qed.

End EmojiOptions.

(** ** Extremes of the distance *)

Section Extremes.

Context `{env : Imports}.



End Extremes.

(** ** The further properties at concrete inputs (sample environment) *)

Section FurtherEvaluation.

Import Sample.

Local Existing Instance imports.

(** Evaluates a comparison between two numerals. *)
Ltac compare_numerals :=
  repeat first
    [ rewrite (proj2 (lt_true _ _)) by lra
    | rewrite (proj2 (lt_false _ _)) by lra ].

(** Witness of X7: seven days after the new moon the phase is FIRST_QUARTER
    and the moon is waxing. *)
Lemma flags_agree_with_phase_witness :
  isWaxing (date (2451550.1 + 7)) = true /\
  isWaning (date (2451550.1 + 7)) = false.
Proof.
  destruct (flags_agree_with_phase (date (2451550.1 + 7)) None) as (Hwax & _).
  apply Hwax. right. left.
  unfold lunarPhase. cbv zeta.
  rewrite sample_lunarAge by (unfold SYNODIC_MONTH; lra).
  compare_numerals. reflexivity.
Defined.

(** Witness of X8: a stray property beside [hemisphere] changes nothing, and
    an unusable [hemisphere] acts as no options at all. *)
Lemma emoji_uses_hemisphere_only_witness :
  emojiForLunarPhase (LunarPhase.Member LunarPhase.LAST_QUARTER)
    (Some (<["zoom"%string := OtherValue "2"]> southernOptions))
  = emojiForLunarPhase (LunarPhase.Member LunarPhase.LAST_QUARTER)
      (Some southernOptions) /\
  emojiForLunarPhase (LunarPhase.Member LunarPhase.LAST_QUARTER) (Some strayOptions)
  = emojiForLunarPhase (LunarPhase.Member LunarPhase.LAST_QUARTER) None.
Proof.
  split.
  - apply (emoji_uses_hemisphere_only _ _ (Some southernOptions)). reflexivity.
  - apply (emoji_uses_hemisphere_only _ (Some strayOptions) None).
    vm_compute. discriminate.
Defined.

End FurtherEvaluation.
